(** * NetconfCiscoRouteMapBug: the NETCONF and CLI wrappers of [run.py]

    A shallow embedding of the two wrapper classes of [run.py] ([netconf] and
    [ssh]) and the properties of their read and edit operations.

    - Parsed XML (the result of [xmltodict.parse]) is a tree of Python values:
      [None], strings, lists and dictionaries with string keys.
    - A Python call either returns a value or raises; [outcome] records which.
    - The calls into [ncclient] and [netmiko] are the program's only effects.
      A method is a tree of such calls ([prog]); a [handler] plays the remote
      device and the client libraries, and [run] executes a method against it,
      recording every call issued.
    - An argument with a default value is an [option]: [None] is the argument
      left out.

    The driver [main], a fixed sequence of calls to these methods and of
    [print] statements, is not part of the embedding. *)

From stdpp Require Import gmap strings list fin_maps pretty.

Set Warnings "-register-all".

(** ** Python values, exceptions and outcomes *)

(** The values [xmltodict.parse] produces: an empty element is [None], an
    element with text only is a [str], a repeated element is a [list], and an
    element with children or attributes is a [dict]. *)
Inductive pyval : Type :=
| VNone
| VStr (s : string)
| VList (l : list pyval)
| VDict (d : gmap string pyval).

(** The exceptions the wrappers meet. [LibraryError] stands for whatever a
    client library raises (connection, authentication, RPC and parse errors). *)
Inductive exn : Type :=
| KeyError
| TypeError
| ValueError (msg : string)
| LibraryError (name : string).

Inductive outcome (A : Type) : Type :=
| Return (a : A)
| Raise (e : exn).
Arguments Return {A} a.
Arguments Raise {A} e.

#[global] Instance outcome_ret : MRet outcome := @Return.
#[global] Instance outcome_bind : MBind outcome := fun A B f o =>
  match o with
  | Return a => f a
  | Raise e => Raise e
  end.

(** [try: body / except KeyError: handler]. *)
Definition except_KeyError {A} (body handler : outcome A) : outcome A :=
  match body with
  | Raise KeyError => handler
  | o => o
  end.

(** The double quote character, as a one-character string. *)
Definition dq : string := String (Ascii.ascii_of_nat 34) EmptyString.

(** ** [str.format] with keyword arguments

    The fragment the templates of [run.py] use: literal text and replacement
    fields [{name}] naming a keyword argument, with the brace escapes. A field
    whose name is no keyword raises [KeyError]; an unbalanced brace raises
    [ValueError]. Conversions, format specifiers and positional fields occur
    in no template and are not modelled. *)

Inductive fmt_arg : Type :=
| FStr (s : string)
| FInt (z : Z).

(** [format(value, '')]: a string as it is, an integer in decimal. *)
Definition str_of_arg (a : fmt_arg) : string :=
  match a with
  | FStr s => s
  | FInt z => pretty z
  end.

Fixpoint kw_lookup (kwargs : list (string * fmt_arg)) (name : string) : option fmt_arg :=
  match kwargs with
  | [] => None
  | (k, v) :: rest => if String.eqb k name then Some v else kw_lookup rest name
  end.

Definition is_char (c : Ascii.ascii) (s : string) : bool :=
  String.eqb (String c EmptyString) s.

(** [field] is [None] in literal text and [Some name] inside a replacement
    field whose name read so far is [name]. *)
Fixpoint format_go (kwargs : list (string * fmt_arg)) (field : option string)
    (s : string) : outcome string :=
  match s with
  | EmptyString =>
      match field with
      | None => Return EmptyString
      | Some _ => Raise (ValueError "expected '}' before end of string")
      end
  | String c rest =>
      match field with
      | Some name =>
          if is_char c "}" then
            match kw_lookup kwargs name with
            | None => Raise KeyError
            | Some v =>
                out ← format_go kwargs None rest;
                Return (str_of_arg v +:+ out)
            end
          else format_go kwargs (Some (name +:+ String c EmptyString)) rest
      | None =>
          if is_char c "{" then
            match rest with
            | String c' rest' =>
                if is_char c' "{" then
                  out ← format_go kwargs None rest'; Return (String c out)
                else format_go kwargs (Some EmptyString) rest
            | EmptyString => Raise (ValueError "Single '{' encountered in format string")
            end
          else if is_char c "}" then
            match rest with
            | String c' rest' =>
                if is_char c' "}" then
                  out ← format_go kwargs None rest'; Return (String c out)
                else Raise (ValueError "Single '}' encountered in format string")
            | EmptyString => Raise (ValueError "Single '}' encountered in format string")
            end
          else out ← format_go kwargs None rest; Return (String c out)
      end
  end.

Definition format (template : string) (kwargs : list (string * fmt_arg)) : outcome string :=
  format_go kwargs None template.

(** ** Operations on parsed responses *)

(** [v[k]] for a string key [k]: a dictionary yields the value or raises
    [KeyError]; [None], a string and a list raise [TypeError]. *)
Definition getitem (v : pyval) (k : string) : outcome pyval :=
  match v with
  | VDict d =>
      match d !! k with
      | Some x => Return x
      | None => Raise KeyError
      end
  | _ => Raise TypeError
  end.

(** [v[k1][k2]...[kn]], left to right. *)
Fixpoint subscript (v : pyval) (keys : list string) : outcome pyval :=
  match keys with
  | [] => Return v
  | k :: rest => x ← getitem v k; subscript x rest
  end.

(** [type(v) is str] and [type(v) is list]. *)
Definition type_is_str (v : pyval) : bool :=
  match v with VStr _ => true | _ => false end.
Definition type_is_list (v : pyval) : bool :=
  match v with VList _ => true | _ => false end.

(** ['...' == v] for a string on the left. *)
Definition str_eq (s : string) (v : pyval) : bool :=
  match v with VStr t => String.eqb s t | _ => false end.

(** [s in v] for a string [s]: key membership in a dictionary, substring
    search in a string, element equality in a list; [None] is not iterable. *)
Definition str_in (s : string) (v : pyval) : outcome bool :=
  match v with
  | VDict d => Return (bool_decide (is_Some (d !! s)))
  | VStr t => Return (bool_decide (is_Some (String.index 0 s t)))
  | VList l => Return (existsb (str_eq s) l)
  | VNone => Raise TypeError
  end.

(** ** Methods as trees of library calls *)

(** The calls into the client libraries. A session is named by the handle
    the library returned when it was opened.
    - [connect], [get_config], [edit_config], [close_session]: [ncclient]'s
      [manager.connect] and the methods of the manager it returns;
      [get_config] stands for [manager.get_config(...).data_xml].
    - [ConnectHandler], [send_command]: [netmiko]. *)
Inductive call : Type :=
| connect (host : string) (port : Z) (username password : string) (hostkey_verify : bool)
| get_config (manager : string) (source filter : string)
| edit_config (manager : string) (target config : string)
| close_session (manager : string)
| ConnectHandler (device_type host username password : string) (port timeout : Z)
| send_command (session : string) (command_string : string).

(** A method: it returns, raises, or calls a library and goes on with the
    library's answer (a handle, a document, captured text, or an exception). *)
Inductive prog (A : Type) : Type :=
| Ret (a : A)
| Throw (e : exn)
| Call (c : call) (k : outcome string → prog A).
Arguments Ret {A} a.
Arguments Throw {A} e.
Arguments Call {A} c k.

Fixpoint prog_bind {A B} (f : A → prog B) (p : prog A) : prog B :=
  match p with
  | Ret a => f a
  | Throw e => Throw e
  | Call c k => Call c (fun r => prog_bind f (k r))
  end.

#[global] Instance prog_ret : MRet prog := @Ret.
#[global] Instance prog_mbind : MBind prog := @prog_bind.

(** A pure computation inside a method. *)
Definition lift {A} (o : outcome A) : prog A :=
  match o with
  | Return a => Ret a
  | Raise e => Throw e
  end.

(** A library call whose exception, if any, propagates. *)
Definition perform (c : call) : prog string := Call c lift.

(** The exit of a [with] block over an [ncclient] manager: [__exit__] closes
    the session on the way out, whether the body returned or raised, and does
    not swallow the body's exception; an exception of the close itself
    replaces the body's outcome. *)
Fixpoint on_exit {A} (body : prog A) (manager : string) : prog A :=
  match body with
  | Ret a => _ ← perform (close_session manager); Ret a
  | Throw e => _ ← perform (close_session manager); Throw e
  | Call c k => Call c (fun r => on_exit (k r) manager)
  end.

(** The environment: what a library call answers, given the calls made so
    far. It covers the client libraries, the network and the device. *)
Definition handler : Type := list call → call → outcome string.

(** Runs a method against [h]; [log] is the list of calls made so far, oldest
    first. The result is the method's outcome and the extended list. *)
Fixpoint run {A} (h : handler) (p : prog A) (log : list call) : outcome A * list call :=
  match p with
  | Ret a => (Return a, log)
  | Throw e => (Raise e, log)
  | Call c k => run h (k (h log c)) (log ++ [c])
  end.

(** The payloads of the [edit_config] calls of a list of calls, in order. *)
Definition edit_payloads (calls : list call) : list string :=
  omap (fun c => match c with edit_config _ _ config => Some config | _ => None end) calls.

(** ** XML templates *)

Definition getRouteMapByName_filter_template : string :=
  "
			<filter>
				<native xmlns=" +:+ dq +:+ "http://cisco.com/ns/yang/Cisco-IOS-XE-native" +:+ dq +:+ ">
					<route-map>
						<name>{routeMapName}</name>
					</route-map>
				</native>
			</filter>
		".

Definition setRouteMap_config_template : string :=
  "
			<config>
				<native xmlns=" +:+ dq +:+ "http://cisco.com/ns/yang/Cisco-IOS-XE-native" +:+ dq +:+ ">
					<route-map operation=" +:+ dq +:+ "{operation}" +:+ dq +:+ ">
						<name>{routeMapName}</name>
						<route-map-without-order-seq xmlns=" +:+ dq +:+ "http://cisco.com/ns/yang/Cisco-IOS-XE-route-map" +:+ dq +:+ ">
							<seq_no>{routeMapSequence}</seq_no>
							<operation>{routeMapOperation}</operation>
						</route-map-without-order-seq>
					</route-map>
				</native>
			</config>
		".

Definition getRouteMapBGPCommunity_filter_template : string :=
  "
			<filter>
				<native xmlns=" +:+ dq +:+ "http://cisco.com/ns/yang/Cisco-IOS-XE-native" +:+ dq +:+ ">
					<route-map>
						<name>{routeMapName}</name>
						<route-map-without-order-seq xmlns=" +:+ dq +:+ "http://cisco.com/ns/yang/Cisco-IOS-XE-route-map" +:+ dq +:+ ">
							<seq_no>{routeMapSequence}</seq_no>
						</route-map-without-order-seq>
					</route-map>
				</native>
			</filter>
		".

Definition setRouteMapBGPCommunity_config_template : string :=
  "
			<config>
				<native xmlns=" +:+ dq +:+ "http://cisco.com/ns/yang/Cisco-IOS-XE-native" +:+ dq +:+ ">
					<route-map>
						<name>{routeMapName}</name>
						<route-map-without-order-seq xmlns=" +:+ dq +:+ "http://cisco.com/ns/yang/Cisco-IOS-XE-route-map" +:+ dq +:+ ">
							<seq_no>{routeMapSequence}</seq_no>
							<set>
								<community>
									<community-well-known>
										<community-list operation=" +:+ dq +:+ "{operation}" +:+ dq +:+ ">{BGPCommunity}</community-list>
									</community-well-known>
								</community>
							</set>
						</route-map-without-order-seq>
					</route-map>
				</native>
			</config>
		".

Definition getBGPCommunityNewFormat_filter_template : string :=
  "
			<filter>
				<native xmlns=" +:+ dq +:+ "http://cisco.com/ns/yang/Cisco-IOS-XE-native" +:+ dq +:+ ">
					<ip>
						<bgp-community />
					</ip>
				</native>
			</filter>
		".

Definition setBGPCommunityNewFormat_config_template : string :=
  "
			<config>
				<native xmlns=" +:+ dq +:+ "http://cisco.com/ns/yang/Cisco-IOS-XE-native" +:+ dq +:+ ">
					<ip>
						<bgp-community>
							<new-format operation=" +:+ dq +:+ "{operation}" +:+ dq +:+ " />
						</bgp-community>
					</ip>
				</native>
			</config>
		".

Definition getRouteMapConfig_template : string :=
  "show running-config | section route-map {routeMapName}".

(** The path of the community list in a parsed response. *)
Definition community_list_path : list string :=
  ["data"; "native"; "route-map"; "route-map-without-order-seq"; "set";
   "community"; "community-well-known"; "community-list"].

(** ** class netconf *)

Module netconf.

Record t : Type := {
  host : string;
  port : Z;
  username : string;
  password : string
}.

Definition __init__ (host username password : string) (port : option Z) : t :=
  {| host := host; port := default 830%Z port; username := username; password := password |}.

(** [with ncclientManager.connect(host=self.host, port=self.port,
    username=self.username, password=self.password, hostkey_verify=False)
    as manager: body]. *)
Definition with_connect {A} (self : t) (body : string → prog A) : prog A :=
  Call (connect self.(host) self.(port) self.(username) self.(password) false)
    (fun r =>
       match r with
       | Raise e => Throw e
       | Return manager => on_exit (body manager) manager
       end).

Definition getRouteMapByName (self : t) (routeMapName : option string) : prog string :=
  let routeMapName := default "routeMapName" routeMapName in
  filter ← lift (format getRouteMapByName_filter_template
                   [("routeMapName", FStr routeMapName)]);
  netconfResponse ← with_connect self (fun manager =>
    perform (get_config manager "running" filter));
  Ret netconfResponse.

Definition setRouteMap (self : t) (routeMapName : string) (routeMapSequence : option Z)
    (routeMapOperation : option string) (delete : option bool) : prog unit :=
  let routeMapSequence := default 10%Z routeMapSequence in
  let routeMapOperation := default "permit" routeMapOperation in
  let delete := default false delete in
  let operation := "merge" in
  let operation := if delete then "remove" else operation in
  if negb (String.eqb routeMapOperation "permit") && negb (String.eqb routeMapOperation "deny")
  then Throw (ValueError "routeMapOperation must be either 'permit' or 'deny'")
  else
    config ← lift (format setRouteMap_config_template
                     [("routeMapName", FStr routeMapName);
                      ("routeMapSequence", FInt routeMapSequence);
                      ("routeMapOperation", FStr routeMapOperation);
                      ("operation", FStr operation)]);
    _ ← with_connect self (fun manager =>
      perform (edit_config manager "running" config));
    Ret tt.

Definition setRouteMapBGPCommunity (self : t) (routeMapName : string)
    (routeMapSequence : option Z) (BGPCommunity : option string) (delete : option bool)
    : prog unit :=
  let routeMapSequence := default 10%Z routeMapSequence in
  let BGPCommunity := default "1:1" BGPCommunity in
  let delete := default false delete in
  let operation := "merge" in
  let operation := if delete then "remove" else operation in
  config ← lift (format setRouteMapBGPCommunity_config_template
                   [("routeMapName", FStr routeMapName);
                    ("routeMapSequence", FInt routeMapSequence);
                    ("BGPCommunity", FStr BGPCommunity);
                    ("operation", FStr operation)]);
  _ ← with_connect self (fun manager =>
    perform (edit_config manager "running" config));
  Ret tt.

Definition setBGPCommunityNewFormat (self : t) (delete : option bool) : prog unit :=
  let delete := default false delete in
  let operation := "merge" in
  let operation := if delete then "remove" else operation in
  config ← lift (format setBGPCommunityNewFormat_config_template
                   [("operation", FStr operation)]);
  _ ← with_connect self (fun manager =>
    perform (edit_config manager "running" config));
  Ret tt.

(** The block under [## Process the result] of [getRouteMapBGPCommunity]:
    the [try] statement and the [return]. The subscript chain is evaluated
    anew at each place the source writes it. *)
Definition getRouteMapBGPCommunity_result (netconfResponse : gmap string pyval)
    : outcome pyval :=
  let community_list := subscript (VDict netconfResponse) community_list_path in
  communities ← except_KeyError
    (x ← community_list;
     if type_is_str x then
       y ← community_list; Return (VList [y])
     else
       x' ← community_list;
       if type_is_list x' then community_list
       else Raise KeyError)
    (Return (VList []));
  Return communities.

(** The last statement of [getBGPCommunityNewFormat]. *)
Definition getBGPCommunityNewFormat_result (netconfResponse : gmap string pyval)
    : outcome bool :=
  data ← getitem (VDict netconfResponse) "data";
  present ← str_in "native" data;
  if (present : bool) then Return true else Return false.

Section Parser.

(** [xmltodict.parse]: a function of the document, which returns a
    dictionary or raises. *)
Variable xmltodict_parse : string → outcome (gmap string pyval).

(** [getRouteMapBGPCommunity] up to the end of its [with] block: the
    filter, the request and the parse of the reply. *)
Definition getRouteMapBGPCommunity_request (self : t) (routeMapName : string)
    (routeMapSequence : option Z) : prog (gmap string pyval) :=
  let routeMapSequence := default 10%Z routeMapSequence in
  filter ← lift (format getRouteMapBGPCommunity_filter_template
                   [("routeMapName", FStr routeMapName);
                    ("routeMapSequence", FInt routeMapSequence)]);
  with_connect self (fun manager =>
    data_xml ← perform (get_config manager "running" filter);
    lift (xmltodict_parse data_xml)).

Definition getRouteMapBGPCommunity (self : t) (routeMapName : string)
    (routeMapSequence : option Z) : prog pyval :=
  netconfResponse ← getRouteMapBGPCommunity_request self routeMapName routeMapSequence;
  lift (getRouteMapBGPCommunity_result netconfResponse).

(** [getBGPCommunityNewFormat] up to the end of its [with] block. *)
Definition getBGPCommunityNewFormat_request (self : t) : prog (gmap string pyval) :=
  let filter := getBGPCommunityNewFormat_filter_template in
  with_connect self (fun manager =>
    data_xml ← perform (get_config manager "running" filter);
    lift (xmltodict_parse data_xml)).

Definition getBGPCommunityNewFormat (self : t) : prog bool :=
  netconfResponse ← getBGPCommunityNewFormat_request self;
  lift (getBGPCommunityNewFormat_result netconfResponse).

End Parser.

End netconf.

(** ** class ssh *)

Module ssh.

Record t : Type := {
  host : string;
  port : Z;
  username : string;
  password : string;
  ssh : string
}.

Definition __init__ (host username password : string) (port : option Z) : prog t :=
  let port := default 22%Z port in
  session ← perform (ConnectHandler "cisco_ios" host username password port 300);
  Ret {| host := host; port := port; username := username; password := password;
         ssh := session |}.

Definition getRouteMapConfig (self : t) (routeMapName : option string) : prog string :=
  let routeMapName := default EmptyString routeMapName in
  let command := getRouteMapConfig_template in
  command_string ← lift (format command [("routeMapName", FStr routeMapName)]);
  perform (send_command self.(ssh) command_string).

End ssh.

(** ** Sample responses and devices *)

(** The dictionary chain that holds [v] under [keys]. *)
Definition nested (keys : list string) (v : pyval) : pyval :=
  foldr (fun k inner => VDict {[ k := inner ]}) v keys.

(** A parsed response whose community list is [v]. *)
Definition response_with_community_list (v : pyval) : gmap string pyval :=
  {[ "data" := nested (tail community_list_path) v ]}.

(** A reply whose [set] element is empty, and what [xmltodict.parse] makes of
    it: an element without children, attributes or text becomes [None]. *)
Definition data_xml_empty_set : string :=
  "<data><native><route-map><name>X</name><route-map-without-order-seq>"
  +:+ "<seq_no>10</seq_no><operation>permit</operation><set/>"
  +:+ "</route-map-without-order-seq></route-map></native></data>".

Definition response_empty_set : gmap string pyval :=
  {[ "data" := VDict {[ "native" := VDict {[ "route-map" := VDict
     (<[ "name" := VStr "X" ]>
        {[ "route-map-without-order-seq" := VDict
             (<[ "seq_no" := VStr "10" ]>
                (<[ "operation" := VStr "permit" ]>
                   {[ "set" := VNone ]})) ]}) ]} ]} ]}.

(** A device that accepts every session and command and answers [data_xml]
    to every [get_config]. *)
Definition device (data_xml : string) : handler := fun _ c =>
  match c with
  | connect _ _ _ _ _ => Return "manager"
  | get_config _ _ _ => Return data_xml
  | ConnectHandler _ _ _ _ _ _ => Return "session"
  | _ => Return EmptyString
  end.

(** A parser that reads every document as [r]. *)
Definition parse_as (r : gmap string pyval) : string → outcome (gmap string pyval) :=
  fun _ => Return r.

Definition sandbox : netconf.t := netconf.__init__ "sandbox" "developer" "secret" (Some 10000%Z).

(** ** The edit operations, taken together *)

Inductive edit_operation : Type :=
| SetRouteMap (routeMapName : string) (routeMapSequence : option Z)
    (routeMapOperation : option string)
| SetRouteMapBGPCommunity (routeMapName : string) (routeMapSequence : option Z)
    (BGPCommunity : option string)
| SetBGPCommunityNewFormat.

(** The method an edit operation names, applied to its arguments. *)
Definition edit_method (self : netconf.t) (op : edit_operation) (delete : option bool)
    : prog unit :=
  match op with
  | SetRouteMap routeMapName routeMapSequence routeMapOperation =>
      netconf.setRouteMap self routeMapName routeMapSequence routeMapOperation delete
  | SetRouteMapBGPCommunity routeMapName routeMapSequence BGPCommunity =>
      netconf.setRouteMapBGPCommunity self routeMapName routeMapSequence BGPCommunity delete
  | SetBGPCommunityNewFormat => netconf.setBGPCommunityNewFormat self delete
  end.

(** The element of the payload that carries the [operation] attribute. *)
Definition edited_node (op : edit_operation) : string :=
  match op with
  | SetRouteMap _ _ _ => "route-map"
  | SetRouteMapBGPCommunity _ _ _ => "community-list"
  | SetBGPCommunityNewFormat => "new-format"
  end.

(** Whether the arguments pass the method's own validation: only
    [setRouteMap] has one, on [routeMapOperation]. *)
Definition passes_validation (op : edit_operation) : bool :=
  match op with
  | SetRouteMap _ _ routeMapOperation =>
      String.eqb (default "permit" routeMapOperation) "permit"
      || String.eqb (default "permit" routeMapOperation) "deny"
  | _ => true
  end.

(** [operation="..."] as the payload spells it for a [delete] flag. *)
Definition operation_of (delete : option bool) : string :=
  if default false delete then "remove" else "merge".

(** The filters of the [get_config] calls of a list of calls, in order. *)
Definition get_filters (calls : list call) : list string :=
  omap (fun c => match c with get_config _ _ filter => Some filter | _ => None end) calls.

(** ** Parts of a formatted template *)

(** The text a template formats to; empty where [format] raises. *)
Definition render (template : string) (kwargs : list (string * fmt_arg)) : string :=
  match format template kwargs with
  | Return s => s
  | Raise _ => EmptyString
  end.

(** The parts of [s] before and after the first occurrence of [marker]. *)
Definition before_marker (marker s : string) : string :=
  match String.index 0 marker s with
  | Some i => String.substring 0 i s
  | None => s
  end.

Definition after_marker (marker s : string) : string :=
  match String.index 0 marker s with
  | Some i =>
      String.substring (i + String.length marker)
        (String.length s - (i + String.length marker)) s
  | None => EmptyString
  end.

(** The attribute [operation] of element [node], as a template writes it. *)
Definition operation_field (node : string) : string :=
  "<" +:+ node +:+ " operation=" +:+ dq +:+ "{operation}" +:+ dq.

(** ** The templates *)

(** The templates have the lengths of the string literals of [run.py]. *)
Example template_lengths :
  String.length <$>
    [getRouteMapByName_filter_template; setRouteMap_config_template;
     getRouteMapBGPCommunity_filter_template; setRouteMapBGPCommunity_config_template;
     getBGPCommunityNewFormat_filter_template; setBGPCommunityNewFormat_config_template;
     getRouteMapConfig_template]
  = [177; 423; 349; 564; 153; 220; 54].
Proof. reflexivity. Qed.

(** ** Running methods *)

Lemma run_bind {A B} (h : handler) (p : prog A) (f : A → prog B) (log : list call) :
  run h (p ≫= f) log =
  match run h p log with
  | (Return a, log') => run h (f a) log'
  | (Raise e, log') => (Raise e, log')
  end.
Proof.
  revert log. induction p as [a | e | c k IH]; intros log; try reflexivity.
  apply IH.
Qed.

Lemma run_lift {A} (h : handler) (o : outcome A) (log : list call) :
  run h (lift o) log = (o, log).
Proof. destruct o; reflexivity. Qed.

(** A method that ends with a pure computation on what its request obtained
    returns or raises as that computation does. *)
Lemma run_request_then {A B} (h : handler) (request : prog A) (f : A → outcome B)
    (log log' : list call) (a : A) :
  run h request log = (Return a, log') →
  run h (x ← request; lift (f x)) log = (f a, log').
Proof. intros Hreq. rewrite run_bind, Hreq. apply run_lift. Qed.

(** ** The community list of a parsed response *)

(** What [getRouteMapBGPCommunity] makes of a parsed response, by the outcome
    of the subscript chain. *)
Lemma getRouteMapBGPCommunity_result_cases (netconfResponse : gmap string pyval) :
  netconf.getRouteMapBGPCommunity_result netconfResponse =
  match subscript (VDict netconfResponse) community_list_path with
  | Return (VStr s) => Return (VList [VStr s])
  | Return (VList l) => Return (VList l)
  | Return _ => Return (VList [])
  | Raise KeyError => Return (VList [])
  | Raise e => Raise e
  end.
Proof.
  unfold netconf.getRouteMapBGPCommunity_result.
  destruct (subscript (VDict netconfResponse) community_list_path) as [[| s | l | d] | []];
    reflexivity.
Qed.

(** The subscript chain raises [KeyError] exactly where a dictionary lacks the
    next key, and [TypeError] where it meets a value that is no dictionary. *)
Lemma subscript_cons (v : pyval) (k : string) (keys : list string) :
  subscript v (k :: keys) =
  match v with
  | VDict d =>
      match d !! k with
      | Some x => subscript x keys
      | None => Raise KeyError
      end
  | _ => Raise TypeError
  end.
Proof. destruct v as [| | | d]; try reflexivity. simpl. destruct (d !! k); reflexivity. Qed.

Lemma subscript_nested (keys : list string) (v : pyval) :
  subscript (nested keys v) keys = Return v.
Proof.
  induction keys as [| k keys IH]; [reflexivity |].
  rewrite subscript_cons. simpl. rewrite lookup_singleton_eq. exact IH.
Qed.

Lemma subscript_response_with_community_list (v : pyval) :
  subscript (VDict (response_with_community_list v)) community_list_path = Return v.
Proof.
  unfold response_with_community_list, community_list_path.
  rewrite subscript_cons, lookup_singleton_eq. apply subscript_nested.
Qed.

Lemma subscript_app (v : pyval) (before after : list string) :
  subscript v (before ++ after) = x ← subscript v before; subscript x after.
Proof.
  revert v. induction before as [| k before IH]; intros v; [reflexivity |].
  simpl. destruct (getitem v k) as [x | e]; simpl; [apply IH | reflexivity].
Qed.

(** A key missing from the dictionary that should hold it, every key before
    it leading to a dictionary: the result is the empty list. *)
Lemma getRouteMapBGPCommunity_result_missing_key (netconfResponse : gmap string pyval)
    (before after : list string) (k : string) (d : gmap string pyval) :
  community_list_path = before ++ k :: after →
  subscript (VDict netconfResponse) before = Return (VDict d) →
  d !! k = None →
  netconf.getRouteMapBGPCommunity_result netconfResponse = Return (VList []).
Proof.
  intros Hpath Hbefore Hk. rewrite getRouteMapBGPCommunity_result_cases, Hpath.
  rewrite subscript_app, Hbefore. simpl. rewrite Hk. reflexivity.
Qed.

(** C1. When the community-list field of the parsed response is a single
    string [s], [getRouteMapBGPCommunity] returns the one-element list [[s]]. *)
Theorem getRouteMapBGPCommunity_single_string
    (xmltodict_parse : string → outcome (gmap string pyval)) (self : netconf.t)
    (routeMapName : string) (routeMapSequence : option Z)
    (h : handler) (log log' : list call) (netconfResponse : gmap string pyval) (s : string) :
  run h (netconf.getRouteMapBGPCommunity_request xmltodict_parse self routeMapName
           routeMapSequence) log = (Return netconfResponse, log') →
  subscript (VDict netconfResponse) community_list_path = Return (VStr s) →
  run h (netconf.getRouteMapBGPCommunity xmltodict_parse self routeMapName
           routeMapSequence) log = (Return (VList [VStr s]), log').
Proof.
  intros Hreq Hfield. unfold netconf.getRouteMapBGPCommunity.
  rewrite (run_request_then _ _ _ _ _ _ Hreq).
  rewrite getRouteMapBGPCommunity_result_cases, Hfield. reflexivity.
Qed.

Lemma getRouteMapBGPCommunity_single_string_witness :
  run (device "<data/>")
    (netconf.getRouteMapBGPCommunity (parse_as (response_with_community_list (VStr "655370")))
       sandbox "X" None) [] =
  (Return (VList [VStr "655370"]),
   snd (run (device "<data/>")
          (netconf.getRouteMapBGPCommunity_request
             (parse_as (response_with_community_list (VStr "655370"))) sandbox "X" None) [])).
Proof.
  apply (getRouteMapBGPCommunity_single_string _ sandbox "X" None (device "<data/>") [] _
           (response_with_community_list (VStr "655370")) "655370").
  - reflexivity.
  - apply subscript_response_with_community_list.
Defined.

(** C2. When the community-list field of the parsed response is already a
    list, [getRouteMapBGPCommunity] returns that list as it is: the same
    elements in the same order, duplicates included. *)
Theorem getRouteMapBGPCommunity_list_unchanged
    (xmltodict_parse : string → outcome (gmap string pyval)) (self : netconf.t)
    (routeMapName : string) (routeMapSequence : option Z)
    (h : handler) (log log' : list call) (netconfResponse : gmap string pyval)
    (l : list pyval) :
  run h (netconf.getRouteMapBGPCommunity_request xmltodict_parse self routeMapName
           routeMapSequence) log = (Return netconfResponse, log') →
  subscript (VDict netconfResponse) community_list_path = Return (VList l) →
  run h (netconf.getRouteMapBGPCommunity xmltodict_parse self routeMapName
           routeMapSequence) log = (Return (VList l), log').
Proof.
  intros Hreq Hfield. unfold netconf.getRouteMapBGPCommunity.
  rewrite (run_request_then _ _ _ _ _ _ Hreq).
  rewrite getRouteMapBGPCommunity_result_cases, Hfield. reflexivity.
Qed.

Lemma getRouteMapBGPCommunity_list_unchanged_witness :
  run (device "<data/>")
    (netconf.getRouteMapBGPCommunity
       (parse_as (response_with_community_list
                    (VList [VStr "10:10"; VStr "655370"; VStr "10:10"])))
       sandbox "X" None) [] =
  (Return (VList [VStr "10:10"; VStr "655370"; VStr "10:10"]),
   snd (run (device "<data/>")
          (netconf.getRouteMapBGPCommunity_request
             (parse_as (response_with_community_list
                          (VList [VStr "10:10"; VStr "655370"; VStr "10:10"])))
             sandbox "X" None) [])).
Proof.
  apply (getRouteMapBGPCommunity_list_unchanged _ sandbox "X" None (device "<data/>") [] _
           (response_with_community_list (VList [VStr "10:10"; VStr "655370"; VStr "10:10"]))).
  - reflexivity.
  - apply subscript_response_with_community_list.
Defined.

(** C3. A parsed response whose [set] element is empty has no community-list
    field, yet [getRouteMapBGPCommunity] does not return the empty list on
    it: subscripting [None] raises [TypeError], which the [except KeyError]
    clause lets through. *)
Theorem getRouteMapBGPCommunity_empty_set_raises :
  subscript (VDict response_empty_set)
    ["data"; "native"; "route-map"; "route-map-without-order-seq"; "set"] = Return VNone
  ∧ netconf.getRouteMapBGPCommunity_result response_empty_set = Raise TypeError
  ∧ fst (run (device data_xml_empty_set)
           (netconf.getRouteMapBGPCommunity (parse_as response_empty_set) sandbox "X" None) [])
    = Raise TypeError.
Proof. repeat split; vm_compute; reflexivity. Qed.

(** C9. When the whole path is present and the community-list value is
    neither a string nor a list, [getRouteMapBGPCommunity] returns the empty
    list: the [KeyError] of the [else] branch is caught like a missing key. *)
Theorem getRouteMapBGPCommunity_other_shape
    (xmltodict_parse : string → outcome (gmap string pyval)) (self : netconf.t)
    (routeMapName : string) (routeMapSequence : option Z)
    (h : handler) (log log' : list call) (netconfResponse : gmap string pyval)
    (v : pyval) :
  run h (netconf.getRouteMapBGPCommunity_request xmltodict_parse self routeMapName
           routeMapSequence) log = (Return netconfResponse, log') →
  subscript (VDict netconfResponse) community_list_path = Return v →
  type_is_str v = false →
  type_is_list v = false →
  run h (netconf.getRouteMapBGPCommunity xmltodict_parse self routeMapName
           routeMapSequence) log = (Return (VList []), log').
Proof.
  intros Hreq Hfield Hstr Hlist. unfold netconf.getRouteMapBGPCommunity.
  rewrite (run_request_then _ _ _ _ _ _ Hreq).
  rewrite getRouteMapBGPCommunity_result_cases, Hfield.
  destruct v; first [discriminate | reflexivity].
Qed.

Lemma getRouteMapBGPCommunity_other_shape_witness :
  run (device "<data/>")
    (netconf.getRouteMapBGPCommunity
       (parse_as (response_with_community_list (VDict {[ "#text" := VStr "10:10" ]})))
       sandbox "X" None) [] =
  (Return (VList []),
   snd (run (device "<data/>")
          (netconf.getRouteMapBGPCommunity_request
             (parse_as (response_with_community_list (VDict {[ "#text" := VStr "10:10" ]})))
             sandbox "X" None) [])).
Proof.
  apply (getRouteMapBGPCommunity_other_shape _ sandbox "X" None (device "<data/>") [] _
           (response_with_community_list (VDict {[ "#text" := VStr "10:10" ]}))
           (VDict {[ "#text" := VStr "10:10" ]})).
  - reflexivity.
  - apply subscript_response_with_community_list.
  - reflexivity.
  - reflexivity.
Defined.

(** ** The new-format check *)

Lemma getBGPCommunityNewFormat_result_dict (netconfResponse d : gmap string pyval) :
  netconfResponse !! "data" = Some (VDict d) →
  netconf.getBGPCommunityNewFormat_result netconfResponse =
  Return (bool_decide (is_Some (d !! "native"))).
Proof.
  intros Hdata. unfold netconf.getBGPCommunityNewFormat_result. simpl.
  rewrite Hdata. simpl. destruct (bool_decide (is_Some (d !! "native"))); reflexivity.
Qed.

(** C6. On a parsed response whose [data] is a dictionary,
    [getBGPCommunityNewFormat] returns [True] if the key [native] is in that
    dictionary and [False] if not; whatever value the key holds, the answer
    is [True]. *)
Theorem getBGPCommunityNewFormat_native_key
    (xmltodict_parse : string → outcome (gmap string pyval)) (self : netconf.t)
    (h : handler) (log log' : list call) (netconfResponse d : gmap string pyval) :
  run h (netconf.getBGPCommunityNewFormat_request xmltodict_parse self) log
    = (Return netconfResponse, log') →
  netconfResponse !! "data" = Some (VDict d) →
  run h (netconf.getBGPCommunityNewFormat xmltodict_parse self) log
    = (Return (bool_decide (is_Some (d !! "native"))), log')
  ∧ (∀ v : pyval, d !! "native" = Some v →
       run h (netconf.getBGPCommunityNewFormat xmltodict_parse self) log
         = (Return true, log')).
Proof.
  intros Hreq Hdata.
  assert (run h (netconf.getBGPCommunityNewFormat xmltodict_parse self) log
            = (Return (bool_decide (is_Some (d !! "native"))), log')) as Hrun.
  { unfold netconf.getBGPCommunityNewFormat.
    rewrite (run_request_then _ _ _ _ _ _ Hreq).
    rewrite (getBGPCommunityNewFormat_result_dict _ _ Hdata). reflexivity. }
  split; [exact Hrun |].
  intros v Hv. rewrite Hrun, Hv. reflexivity.
Qed.

Lemma getBGPCommunityNewFormat_native_key_witness :
  run (device "<data/>")
    (netconf.getBGPCommunityNewFormat
       (parse_as {[ "data" := VDict {[ "native" := VDict {[ "hostname" := VStr "csr" ]} ]} ]})
       sandbox) [] =
  (Return true,
   snd (run (device "<data/>")
          (netconf.getBGPCommunityNewFormat_request
             (parse_as {[ "data" := VDict {[ "native" := VDict {[ "hostname" := VStr "csr" ]} ]} ]})
             sandbox) [])).
Proof.
  assert (run (device "<data/>")
            (netconf.getBGPCommunityNewFormat_request
               (parse_as {[ "data" := VDict {[ "native" := VDict {[ "hostname" := VStr "csr" ]} ]} ]})
               sandbox) []
          = (Return {[ "data" := VDict {[ "native" := VDict {[ "hostname" := VStr "csr" ]} ]} ]},
             snd (run (device "<data/>")
                    (netconf.getBGPCommunityNewFormat_request
                       (parse_as {[ "data" := VDict {[ "native" := VDict {[ "hostname" := VStr "csr" ]} ]} ]})
                       sandbox) []))) as Hreq by reflexivity.
  exact (proj2 (getBGPCommunityNewFormat_native_key _ _ _ _ _ _
                  {[ "native" := VDict {[ "hostname" := VStr "csr" ]} ]} Hreq eq_refl)
           (VDict {[ "hostname" := VStr "csr" ]}) eq_refl).
Defined.

(** C10. On a parsed response without the key [data],
    [getBGPCommunityNewFormat] raises [KeyError] and nothing catches it, where
    [getRouteMapBGPCommunity] returns the empty list. *)
Theorem getBGPCommunityNewFormat_missing_data
    (xmltodict_parse : string → outcome (gmap string pyval)) (self : netconf.t)
    (routeMapName : string) (routeMapSequence : option Z)
    (h : handler) (log log1 log2 : list call) (netconfResponse : gmap string pyval) :
  netconfResponse !! "data" = None →
  (run h (netconf.getBGPCommunityNewFormat_request xmltodict_parse self) log
     = (Return netconfResponse, log1) →
   run h (netconf.getBGPCommunityNewFormat xmltodict_parse self) log
     = (Raise KeyError, log1))
  ∧ (run h (netconf.getRouteMapBGPCommunity_request xmltodict_parse self routeMapName
              routeMapSequence) log = (Return netconfResponse, log2) →
     run h (netconf.getRouteMapBGPCommunity xmltodict_parse self routeMapName
              routeMapSequence) log = (Return (VList []), log2)).
Proof.
  intros Hdata. split; intros Hreq.
  - unfold netconf.getBGPCommunityNewFormat.
    rewrite (run_request_then _ _ _ _ _ _ Hreq).
    unfold netconf.getBGPCommunityNewFormat_result. simpl. rewrite Hdata. reflexivity.
  - unfold netconf.getRouteMapBGPCommunity.
    rewrite (run_request_then _ _ _ _ _ _ Hreq).
    rewrite (getRouteMapBGPCommunity_result_missing_key netconfResponse [] _ "data"
               netconfResponse eq_refl eq_refl Hdata).
    reflexivity.
Qed.

Lemma getBGPCommunityNewFormat_missing_data_witness :
  fst (run (device "<rpc-reply/>")
         (netconf.getBGPCommunityNewFormat (parse_as {[ "rpc-reply" := VNone ]}) sandbox) [])
    = Raise KeyError
  ∧ fst (run (device "<rpc-reply/>")
           (netconf.getRouteMapBGPCommunity (parse_as {[ "rpc-reply" := VNone ]}) sandbox
              "X" None) [])
    = Return (VList []).
Proof.
  assert (({[ "rpc-reply" := VNone ]} : gmap string pyval) !! "data" = None) as Hdata
    by (vm_compute; reflexivity).
  destruct (getBGPCommunityNewFormat_missing_data (parse_as {[ "rpc-reply" := VNone ]})
              sandbox "X" None (device "<rpc-reply/>") []
              (snd (run (device "<rpc-reply/>")
                      (netconf.getBGPCommunityNewFormat_request
                         (parse_as {[ "rpc-reply" := VNone ]}) sandbox) []))
              (snd (run (device "<rpc-reply/>")
                      (netconf.getRouteMapBGPCommunity_request
                         (parse_as {[ "rpc-reply" := VNone ]}) sandbox "X" None) []))
              {[ "rpc-reply" := VNone ]} Hdata) as [Hflag Hlist].
  split.
  - rewrite Hflag; reflexivity.
  - rewrite Hlist; reflexivity.
Defined.

(** ** [str.format] on a template in two parts *)

Lemma append_assoc (a b c : string) : (a +:+ b) +:+ c = a +:+ (b +:+ c).
Proof.
  induction a as [| x a IH]; [reflexivity |].
  change (String x ((a +:+ b) +:+ c) = String x (a +:+ (b +:+ c))). rewrite IH. reflexivity.
Qed.

Lemma outcome_bind_Return {A B} (o : outcome A) (f : A → outcome B) (b : B) :
  o ≫= f = Return b → ∃ a, o = Return a ∧ f a = Return b.
Proof. destruct o as [a | e]; [eauto | discriminate]. Qed.

Lemma format_go_app (kwargs : list (string * fmt_arg)) (n : nat) :
  ∀ (t1 : string) (field : option string) (t2 s1 : string),
    String.length t1 ≤ n →
    format_go kwargs field t1 = Return s1 →
    format_go kwargs field (t1 +:+ t2) =
    (s2 ← format_go kwargs None t2; Return (s1 +:+ s2)).
Proof.
  induction n as [| n IH]; intros [| c rest] field t2 s1 Hlen Hfmt;
    try (simpl in Hlen; lia).
  - destruct field; [discriminate |]. injection Hfmt as <-.
    change (EmptyString +:+ t2) with t2. destruct (format_go kwargs None t2); reflexivity.
  - destruct field; [discriminate |]. injection Hfmt as <-.
    change (EmptyString +:+ t2) with t2. destruct (format_go kwargs None t2); reflexivity.
  - change (String c rest +:+ t2) with (String c (rest +:+ t2)).
    simpl in Hlen. simpl in Hfmt |- *.
    destruct field as [name |].
    + destruct (is_char c "}").
      * destruct (kw_lookup kwargs name) as [v |]; [| discriminate].
        apply outcome_bind_Return in Hfmt as (out & Hrest & [= <-]).
        rewrite (IH rest None t2 out) by (assumption || lia).
        destruct (format_go kwargs None t2); simpl; [| reflexivity].
        rewrite append_assoc. reflexivity.
      * apply IH; [lia | assumption].
    + destruct (is_char c "{").
      * destruct rest as [| c' rest']; [discriminate |].
        change (String c' rest' +:+ t2) with (String c' (rest' +:+ t2)). cbv beta iota.
        destruct (is_char c' "{") eqn:Hc'.
        -- apply outcome_bind_Return in Hfmt as (out & Hrest & [= <-]).
           simpl in Hlen.
           rewrite (IH rest' None t2 out) by (assumption || lia).
           destruct (format_go kwargs None t2); reflexivity.
        -- change (String c' (rest' +:+ t2)) with (String c' rest' +:+ t2).
           apply IH; [lia | assumption].
      * destruct (is_char c "}").
        -- destruct rest as [| c' rest']; [discriminate |].
           change (String c' rest' +:+ t2) with (String c' (rest' +:+ t2)). cbv beta iota.
           destruct (is_char c' "}") eqn:Hc'; [| discriminate].
           apply outcome_bind_Return in Hfmt as (out & Hrest & [= <-]).
           simpl in Hlen.
           rewrite (IH rest' None t2 out) by (assumption || lia).
           destruct (format_go kwargs None t2); reflexivity.
        -- apply outcome_bind_Return in Hfmt as (out & Hrest & [= <-]).
           rewrite (IH rest None t2 out) by (assumption || lia).
           destruct (format_go kwargs None t2); reflexivity.
Qed.

(** Formatting a template is formatting its parts, where the first part is a
    template by itself. *)
Lemma format_app (template1 template2 : string) (kwargs : list (string * fmt_arg))
    (s1 : string) :
  format template1 kwargs = Return s1 →
  format (template1 +:+ template2) kwargs =
  (s2 ← format template2 kwargs; Return (s1 +:+ s2)).
Proof. apply (format_go_app kwargs (String.length template1)). lia. Qed.

(** A template cut at a marker: the text before the marker, then what the
    marker and the text after it format to. *)
Lemma render_around_marker (template marker rest : string)
    (kwargs kwargs1 : list (string * fmt_arg)) :
  template = before_marker marker template +:+ (marker +:+ after_marker marker template) →
  format (before_marker marker template) kwargs
    = Return (render (before_marker marker template) kwargs1) →
  format (marker +:+ after_marker marker template) kwargs = Return rest →
  render template kwargs = render (before_marker marker template) kwargs1 +:+ rest.
Proof.
  intros Htemplate Hbefore Hafter. unfold render at 1.
  assert (format template kwargs
          = format (before_marker marker template
                    +:+ (marker +:+ after_marker marker template)) kwargs) as ->
    by (rewrite <- Htemplate; reflexivity).
  rewrite (format_app _ _ _ _ Hbefore), Hafter. reflexivity.
Qed.

(** ** The edit operations *)

Lemma edit_payloads_app (l1 l2 : list call) :
  edit_payloads (l1 ++ l2) = edit_payloads l1 ++ edit_payloads l2.
Proof. apply omap_app. Qed.

Lemma get_filters_app (l1 l2 : list call) :
  get_filters (l1 ++ l2) = get_filters l1 ++ get_filters l2.
Proof. apply omap_app. Qed.

(** One call inside a [with] block: the session is opened, the call is made,
    and the session is closed whether the call returned or raised. *)
Lemma run_with_connect_perform (self : netconf.t) (c : string → call) (h : handler)
    (log : list call) (manager : string) :
  h log (connect (netconf.host self) (netconf.port self) (netconf.username self)
           (netconf.password self) false) = Return manager →
  snd (run h (netconf.with_connect self (fun manager => perform (c manager))) log) =
  log ++ [connect (netconf.host self) (netconf.port self) (netconf.username self)
            (netconf.password self) false;
          c manager; close_session manager].
Proof.
  intros Hconnect. simpl. rewrite Hconnect. simpl.
  destruct (h _ (c manager)); simpl; destruct (h _ (close_session manager)); simpl;
    rewrite <- !app_assoc; reflexivity.
Qed.

Lemma run_with_connect_refused {A} (self : netconf.t) (body : string → prog A) (h : handler)
    (log : list call) (e : exn) :
  h log (connect (netconf.host self) (netconf.port self) (netconf.username self)
           (netconf.password self) false) = Raise e →
  run h (netconf.with_connect self body) log =
  (Raise e, log ++ [connect (netconf.host self) (netconf.port self) (netconf.username self)
                      (netconf.password self) false]).
Proof. intros Hconnect. simpl. rewrite Hconnect. reflexivity. Qed.

(** The tail of every edit method: the payload goes out in one
    [edit_config] on the running datastore. *)
Lemma run_edit_config (self : netconf.t) (config : string) (h : handler)
    (log : list call) (manager : string) :
  h log (connect (netconf.host self) (netconf.port self) (netconf.username self)
           (netconf.password self) false) = Return manager →
  snd (run h (_ ← netconf.with_connect self (fun manager =>
                    perform (edit_config manager "running" config)); Ret tt) log) =
  log ++ [connect (netconf.host self) (netconf.port self) (netconf.username self)
            (netconf.password self) false;
          edit_config manager "running" config; close_session manager].
Proof.
  intros Hconnect. rewrite run_bind.
  rewrite <- (run_with_connect_perform self (fun m => edit_config m "running" config) h log
                manager Hconnect).
  destruct (run h _ log) as [[[] | e] log']; reflexivity.
Qed.

(** The validation of [setRouteMap] is the only place it raises by itself. *)
Lemma setRouteMap_invalid (self : netconf.t) (routeMapName : string)
    (routeMapSequence : option Z) (routeMapOperation : option string) (delete : option bool) :
  passes_validation (SetRouteMap routeMapName routeMapSequence routeMapOperation) = false →
  netconf.setRouteMap self routeMapName routeMapSequence routeMapOperation delete =
  Throw (ValueError "routeMapOperation must be either 'permit' or 'deny'").
Proof.
  unfold passes_validation, netconf.setRouteMap. cbv zeta.
  intros [Hpermit Hdeny]%orb_false_iff. rewrite Hpermit, Hdeny. reflexivity.
Qed.

Lemma setRouteMap_valid (self : netconf.t) (routeMapName : string)
    (routeMapSequence : option Z) (routeMapOperation : option string) (delete : option bool) :
  passes_validation (SetRouteMap routeMapName routeMapSequence routeMapOperation) = true →
  netconf.setRouteMap self routeMapName routeMapSequence routeMapOperation delete =
  (_ ← netconf.with_connect self (fun manager =>
         perform (edit_config manager "running"
                    (render setRouteMap_config_template
                       [("routeMapName", FStr routeMapName);
                        ("routeMapSequence", FInt (default 10%Z routeMapSequence));
                        ("routeMapOperation", FStr (default "permit" routeMapOperation));
                        ("operation", FStr (operation_of delete))])));
   Ret tt).
Proof.
  unfold passes_validation, netconf.setRouteMap. cbv zeta.
  intros Hvalid.
  assert (negb (String.eqb (default "permit" routeMapOperation) "permit")
          && negb (String.eqb (default "permit" routeMapOperation) "deny") = false) as ->.
  { rewrite <- negb_orb, Hvalid. reflexivity. }
  reflexivity.
Qed.

Lemma setRouteMapBGPCommunity_edit (self : netconf.t) (routeMapName : string)
    (routeMapSequence : option Z) (BGPCommunity : option string) (delete : option bool) :
  netconf.setRouteMapBGPCommunity self routeMapName routeMapSequence BGPCommunity delete =
  (_ ← netconf.with_connect self (fun manager =>
         perform (edit_config manager "running"
                    (render setRouteMapBGPCommunity_config_template
                       [("routeMapName", FStr routeMapName);
                        ("routeMapSequence", FInt (default 10%Z routeMapSequence));
                        ("BGPCommunity", FStr (default "1:1" BGPCommunity));
                        ("operation", FStr (operation_of delete))])));
   Ret tt).
Proof. reflexivity. Qed.

Lemma setBGPCommunityNewFormat_edit (self : netconf.t) (delete : option bool) :
  netconf.setBGPCommunityNewFormat self delete =
  (_ ← netconf.with_connect self (fun manager =>
         perform (edit_config manager "running"
                    (render setBGPCommunityNewFormat_config_template
                       [("operation", FStr (operation_of delete))])));
   Ret tt).
Proof. reflexivity. Qed.

(** Every call a method makes is added after the calls made before. *)
Lemma run_log_extends {A} (h : handler) (p : prog A) (log : list call) :
  ∃ calls, snd (run h p log) = log ++ calls.
Proof.
  revert log. induction p as [a | e | c k IH]; intros log.
  - exists []. simpl. rewrite app_nil_r. reflexivity.
  - exists []. simpl. rewrite app_nil_r. reflexivity.
  - destruct (IH (h log c) (log ++ [c])) as [calls Hcalls].
    exists (c :: calls). simpl. rewrite Hcalls, <- app_assoc. reflexivity.
Qed.

Lemma run_perform (h : handler) (c : call) (log : list call) :
  run h (perform c) log = (h log c, log ++ [c]).
Proof. unfold perform. simpl. apply run_lift. Qed.

Lemma append_empty_r (s : string) : s +:+ EmptyString = s.
Proof.
  induction s as [| c s IH]; [reflexivity |].
  change (String c (s +:+ EmptyString) = String c s). rewrite IH. reflexivity.
Qed.

(** C4. [setRouteMap] with a [routeMapOperation] other than [permit] and
    [deny] raises [ValueError] whatever the [delete] flag, and has made no
    library call by then. With [permit] or [deny] it goes on to open the
    session, and returns when the device accepts every call. *)
Theorem setRouteMap_validates_operation (self : netconf.t) (routeMapName : string)
    (routeMapSequence : option Z) (routeMapOperation : string) (delete : option bool)
    (h : handler) (log : list call) :
  (routeMapOperation ≠ "permit" → routeMapOperation ≠ "deny" →
   run h (netconf.setRouteMap self routeMapName routeMapSequence (Some routeMapOperation)
            delete) log
   = (Raise (ValueError "routeMapOperation must be either 'permit' or 'deny'"), log))
  ∧ (routeMapOperation = "permit" ∨ routeMapOperation = "deny" →
     (∃ calls,
        snd (run h (netconf.setRouteMap self routeMapName routeMapSequence
                      (Some routeMapOperation) delete) log)
        = log ++ connect (netconf.host self) (netconf.port self) (netconf.username self)
                   (netconf.password self) false :: calls)
     ∧ ((∀ l c, ∃ answer, h l c = Return answer) →
        fst (run h (netconf.setRouteMap self routeMapName routeMapSequence
                      (Some routeMapOperation) delete) log) = Return tt)).
Proof.
  split.
  - intros Hpermit Hdeny. rewrite setRouteMap_invalid; [reflexivity |].
    simpl. apply orb_false_iff. split; apply String.eqb_neq; assumption.
  - intros Hvalid. rewrite setRouteMap_valid.
    2:{ simpl. apply orb_true_iff. rewrite !String.eqb_eq. exact Hvalid. }
    split.
    + cbn -[render]. 
      match goal with
      | |- context [run h ?p ?l] => destruct (run_log_extends h p l) as [calls Hcalls]
      end.
      exists calls. rewrite Hcalls, <- app_assoc. reflexivity.
    + intros Haccepts. cbn -[render].
      destruct (Haccepts log (connect (netconf.host self) (netconf.port self)
                                (netconf.username self) (netconf.password self) false))
        as [manager ->].
      cbn -[render].
      match goal with
      | |- context [h ?l (edit_config ?m ?t ?c)] =>
          destruct (Haccepts l (edit_config m t c)) as [reply ->]
      end.
      cbn -[render].
      match goal with
      | |- context [h ?l (close_session ?m)] =>
          destruct (Haccepts l (close_session m)) as [closed ->]
      end.
      reflexivity.
Qed.

Lemma setRouteMap_validates_operation_witness :
  run (device "<data/>") (netconf.setRouteMap sandbox "X" None (Some "allow") (Some true)) []
  = (Raise (ValueError "routeMapOperation must be either 'permit' or 'deny'"), [])
  ∧ fst (run (device "<data/>") (netconf.setRouteMap sandbox "X" None (Some "deny") None) [])
    = Return tt.
Proof.
  split.
  - apply (proj1 (setRouteMap_validates_operation sandbox "X" None "allow" (Some true)
                    (device "<data/>") [])); discriminate.
  - apply (proj2 (setRouteMap_validates_operation sandbox "X" None "deny" None
                    (device "<data/>") [])).
    + right; reflexivity.
    + intros l c. destruct c; eexists; reflexivity.
Defined.

(** C5. Whatever the edit operation and its arguments, the payload it sends
    carries [operation=remove] on the edited node when [delete] is true and
    [operation=merge] when it is false or left out; the rest of the payload
    does not depend on the flag. ([setRouteMap] sends nothing when its
    validation fails.) *)
Theorem edit_payload_operation_attribute (self : netconf.t) (op : edit_operation) :
  ∃ pre post : string,
    ∀ (delete : option bool) (h : handler) (log : list call) (manager : string),
      h log (connect (netconf.host self) (netconf.port self) (netconf.username self)
               (netconf.password self) false) = Return manager →
      edit_payloads (snd (run h (edit_method self op delete) log)) =
      edit_payloads log ++
      (if passes_validation op
       then [pre +:+ "<" +:+ edited_node op +:+ " operation=" +:+ dq
             +:+ (if default false delete then "remove" else "merge") +:+ dq +:+ post]
       else []).
Proof.
  assert (∀ config pre post delete h log manager,
            h log (connect (netconf.host self) (netconf.port self) (netconf.username self)
                     (netconf.password self) false) = Return manager →
            config = pre +:+ "<" +:+ edited_node op +:+ " operation=" +:+ dq
                     +:+ operation_of delete +:+ dq +:+ post →
            edit_payloads
              (snd (run h (_ ← netconf.with_connect self (fun manager =>
                                 perform (edit_config manager "running" config)); Ret tt) log))
            = edit_payloads log ++
              [pre +:+ "<" +:+ edited_node op +:+ " operation=" +:+ dq
               +:+ (if default false delete then "remove" else "merge") +:+ dq +:+ post])
    as Hsent.
  { intros config pre post delete h log manager Hconnect ->.
    rewrite (run_edit_config _ _ _ _ _ Hconnect), edit_payloads_app. reflexivity. }
  destruct op as [routeMapName routeMapSequence routeMapOperation
                 | routeMapName routeMapSequence BGPCommunity | ].
  - exists (render (before_marker (operation_field "route-map") setRouteMap_config_template) []),
      (render (after_marker (operation_field "route-map") setRouteMap_config_template)
         [("routeMapName", FStr routeMapName);
          ("routeMapSequence", FInt (default 10%Z routeMapSequence));
          ("routeMapOperation", FStr (default "permit" routeMapOperation))]).
    intros delete h log manager Hconnect.
    destruct (passes_validation (SetRouteMap routeMapName routeMapSequence routeMapOperation))
      eqn:Hvalid; unfold edit_method.
    + rewrite (setRouteMap_valid _ _ _ _ _ Hvalid).
      apply (Hsent _ _ _ _ _ _ _ Hconnect).
      apply (render_around_marker setRouteMap_config_template (operation_field "route-map"));
        [vm_compute; reflexivity | reflexivity | reflexivity].
    + rewrite (setRouteMap_invalid _ _ _ _ _ Hvalid). simpl. rewrite app_nil_r. reflexivity.
  - exists (render (before_marker (operation_field "community-list")
                      setRouteMapBGPCommunity_config_template)
              [("routeMapName", FStr routeMapName);
               ("routeMapSequence", FInt (default 10%Z routeMapSequence))]),
      (render (after_marker (operation_field "community-list")
                 setRouteMapBGPCommunity_config_template)
         [("BGPCommunity", FStr (default "1:1" BGPCommunity))]).
    intros delete h log manager Hconnect. unfold edit_method, passes_validation.
    rewrite setRouteMapBGPCommunity_edit.
    apply (Hsent _ _ _ _ _ _ _ Hconnect).
    apply (render_around_marker setRouteMapBGPCommunity_config_template
             (operation_field "community-list"));
      [vm_compute; reflexivity | reflexivity | reflexivity].
  - exists (render (before_marker (operation_field "new-format")
                      setBGPCommunityNewFormat_config_template) []),
      (render (after_marker (operation_field "new-format")
                 setBGPCommunityNewFormat_config_template) []).
    intros delete h log manager Hconnect. unfold edit_method, passes_validation.
    rewrite setBGPCommunityNewFormat_edit.
    apply (Hsent _ _ _ _ _ _ _ Hconnect).
    apply (render_around_marker setBGPCommunityNewFormat_config_template
             (operation_field "new-format"));
      [vm_compute; reflexivity | reflexivity | reflexivity].
Qed.

Lemma edit_payload_operation_attribute_witness :
  ∃ pre post : string,
    edit_payloads
      (snd (run (device "<data/>")
              (netconf.setRouteMapBGPCommunity sandbox "X" None (Some "10:10") (Some true)) []))
    = [pre +:+ "<community-list operation=" +:+ dq +:+ "remove" +:+ dq +:+ post]
    ∧ edit_payloads
        (snd (run (device "<data/>")
                (netconf.setRouteMapBGPCommunity sandbox "X" None (Some "10:10") None) []))
      = [pre +:+ "<community-list operation=" +:+ dq +:+ "merge" +:+ dq +:+ post].
Proof.
  destruct (edit_payload_operation_attribute sandbox
              (SetRouteMapBGPCommunity "X" None (Some "10:10"))) as (pre & post & Hpayload).
  exists pre, post. split.
  - exact (Hpayload (Some true) (device "<data/>") [] "manager" eq_refl).
  - exact (Hpayload None (device "<data/>") [] "manager" eq_refl).
Defined.

(** ** The CLI wrapper *)

(** C7. [getRouteMapConfig] sends exactly one command, [show running-config |
    section route-map] followed by the route-map name; with the name left out
    (the empty default) nothing follows the keyword, so the command names no
    particular route-map. *)
Theorem getRouteMapConfig_command (self : ssh.t) (routeMapName : string)
    (h : handler) (log : list call) :
  run h (ssh.getRouteMapConfig self (Some routeMapName)) log =
  (h log (send_command (ssh.ssh self)
            ("show running-config | section route-map " +:+ routeMapName)),
   log ++ [send_command (ssh.ssh self)
             ("show running-config | section route-map " +:+ routeMapName)])
  ∧ run h (ssh.getRouteMapConfig self None) log =
    (h log (send_command (ssh.ssh self) "show running-config | section route-map "),
     log ++ [send_command (ssh.ssh self) "show running-config | section route-map "]).
Proof.
  assert (∀ name, ssh.getRouteMapConfig self name =
                  perform (send_command (ssh.ssh self)
                             ("show running-config | section route-map "
                              +:+ default EmptyString name))) as Hcommand.
  { intros name. unfold ssh.getRouteMapConfig. cbv zeta.
    assert (format getRouteMapConfig_template
              [("routeMapName", FStr (default EmptyString name))]
            = Return ("show running-config | section route-map "
                      +:+ (default EmptyString name +:+ EmptyString))) as -> by reflexivity.
    rewrite append_empty_r. reflexivity. }
  split; rewrite Hcommand, run_perform; reflexivity.
Qed.

(** ** The route-map filter *)

(** C8. Called without a name, [getRouteMapByName] submits the filter it
    submits for the name [routeMapName]: the [name] element holds the
    placeholder, and the rest of the filter is as for any other name. *)
Theorem getRouteMapByName_placeholder_filter :
  ∃ pre post : string,
    ∀ (self : netconf.t) (h : handler) (log : list call) (manager : string),
      h log (connect (netconf.host self) (netconf.port self) (netconf.username self)
               (netconf.password self) false) = Return manager →
      get_filters (snd (run h (netconf.getRouteMapByName self None) log)) =
      get_filters log ++ [pre +:+ "<name>routeMapName</name>" +:+ post]
      ∧ ∀ routeMapName : string,
          get_filters (snd (run h (netconf.getRouteMapByName self (Some routeMapName)) log)) =
          get_filters log ++ [pre +:+ "<name>" +:+ routeMapName +:+ "</name>" +:+ post].
Proof.
  exists (before_marker "<name>" getRouteMapByName_filter_template),
    (after_marker "</name>" getRouteMapByName_filter_template).
  intros self h log manager Hconnect.
  assert (∀ name,
            get_filters (snd (run h (netconf.getRouteMapByName self name) log)) =
            get_filters log ++
            [render getRouteMapByName_filter_template
               [("routeMapName", FStr (default "routeMapName" name))]]) as Hfilter.
  { intros name.
    assert (netconf.getRouteMapByName self name =
            (netconfResponse ← netconf.with_connect self (fun manager =>
               perform (get_config manager "running"
                          (render getRouteMapByName_filter_template
                             [("routeMapName", FStr (default "routeMapName" name))])));
             Ret netconfResponse)) as -> by reflexivity.
    rewrite run_bind.
    pose proof (run_with_connect_perform self
                  (fun m => get_config m "running"
                              (render getRouteMapByName_filter_template
                                 [("routeMapName", FStr (default "routeMapName" name))]))
                  h log manager Hconnect) as Hcalls.
    destruct (run h _ log) as [[a | e] log']; simpl in Hcalls |- *;
      rewrite Hcalls, get_filters_app; reflexivity. }
  split; [| intros routeMapName]; rewrite Hfilter;
    apply (f_equal (app (get_filters log))); reflexivity.
Qed.

Lemma getRouteMapByName_placeholder_filter_witness :
  ∃ pre post : string,
    get_filters (snd (run (device "<data/>") (netconf.getRouteMapByName sandbox None) []))
    = [pre +:+ "<name>routeMapName</name>" +:+ post].
Proof.
  destruct getRouteMapByName_placeholder_filter as (pre & post & Hfilter).
  exists pre, post.
  exact (proj1 (Hfilter sandbox (device "<data/>") [] "manager" eq_refl)).
Defined.
